(** * The UDF callback ABI of [tmp.c]

    [tmp.c] declares eight function-pointer typedefs, one per kind of
    user-defined-function callback.  The file has no executable code, so
    the shallow embedding is an embedding of its declarations: a small
    abstract syntax of the C types that occur in it, one record per
    typedef (name, return type, parameter types in declaration order),
    and the list of the typedefs in the order of the file. *)

From Stdlib Require Import String List Bool.
Import ListNotations.
Open Scope string_scope.

(** ** C types occurring in [tmp.c] *)

Inductive ctype : Type :=
| TVoid                 (* void *)
| TBool                 (* bool *)
| TChar                 (* char *)
| TUChar                (* unsigned char *)
| TULong                (* unsigned long *)
| TDouble               (* double *)
| TLongLong             (* long long *)
| TNamed (n : string)   (* a typedef name: UDF_INIT, UDF_ARGS *)
| TPtr (t : ctype).     (* t * *)

Definition ctype_eq_dec : forall x y : ctype, {x = y} + {x <> y}.
Proof. decide equality; apply string_dec. Defined.

Definition ctype_eqb (x y : ctype) : bool :=
  if ctype_eq_dec x y then true else false.

Lemma ctype_eqb_spec (x y : ctype) : ctype_eqb x y = true <-> x = y.
Proof. unfold ctype_eqb; destruct (ctype_eq_dec x y); split; congruence. Qed.

Definition UDF_INIT : ctype := TNamed "UDF_INIT".
Definition UDF_ARGS : ctype := TNamed "UDF_ARGS".

(** ** Function-pointer typedefs

    [typedef R ( *name)(P1, ..., Pn);] is the record
    [{| td_name := name; td_ret := R; td_params := [P1; ...; Pn] |}];
    a parameter list written [(void)] is the empty list. *)

Record fnptr_typedef : Type := mk_typedef {
  td_name : string;
  td_ret : ctype;
  td_params : list ctype
}.

(** [typedef void ( *Udf_func_clear)(UDF_INIT *, unsigned char *, unsigned char * );] *)
Definition Udf_func_clear : fnptr_typedef :=
  mk_typedef "Udf_func_clear" TVoid
    [TPtr UDF_INIT; TPtr TUChar; TPtr TUChar].

(** [typedef void ( *Udf_func_add)(UDF_INIT *, UDF_ARGS *, unsigned char *, unsigned char * );] *)
Definition Udf_func_add : fnptr_typedef :=
  mk_typedef "Udf_func_add" TVoid
    [TPtr UDF_INIT; TPtr UDF_ARGS; TPtr TUChar; TPtr TUChar].

(** [typedef void ( *Udf_func_deinit)(UDF_INIT * );] *)
Definition Udf_func_deinit : fnptr_typedef :=
  mk_typedef "Udf_func_deinit" TVoid [TPtr UDF_INIT].

(** [typedef bool ( *Udf_func_init)(UDF_INIT *, UDF_ARGS *, char * );] *)
Definition Udf_func_init : fnptr_typedef :=
  mk_typedef "Udf_func_init" TBool
    [TPtr UDF_INIT; TPtr UDF_ARGS; TPtr TChar].

(** [typedef void ( *Udf_func_any)(void);] *)
Definition Udf_func_any : fnptr_typedef :=
  mk_typedef "Udf_func_any" TVoid [].

(** [typedef double ( *Udf_func_double)(UDF_INIT *, UDF_ARGS *, unsigned char *, unsigned char * );] *)
Definition Udf_func_double : fnptr_typedef :=
  mk_typedef "Udf_func_double" TDouble
    [TPtr UDF_INIT; TPtr UDF_ARGS; TPtr TUChar; TPtr TUChar].

(** [typedef long long ( *Udf_func_longlong)(UDF_INIT *, UDF_ARGS *, unsigned char *, unsigned char * );] *)
Definition Udf_func_longlong : fnptr_typedef :=
  mk_typedef "Udf_func_longlong" TLongLong
    [TPtr UDF_INIT; TPtr UDF_ARGS; TPtr TUChar; TPtr TUChar].

(** [typedef char *( *Udf_func_string)(UDF_INIT *, UDF_ARGS *, char *,
                                      unsigned long *, unsigned char *,
                                      unsigned char * );] *)
Definition Udf_func_string : fnptr_typedef :=
  mk_typedef "Udf_func_string" (TPtr TChar)
    [TPtr UDF_INIT; TPtr UDF_ARGS; TPtr TChar;
     TPtr TULong; TPtr TUChar; TPtr TUChar].

(** The declarations of [tmp.c], in the order of the file. *)
Definition tmp_c : list fnptr_typedef :=
  [Udf_func_clear; Udf_func_add; Udf_func_deinit; Udf_func_init;
   Udf_func_any; Udf_func_double; Udf_func_longlong; Udf_func_string].

(** ** Callback kinds

    One constructor per typedef; [decl] maps a kind to its declaration. *)

Inductive kind : Type :=
| Clear | Add | Deinit | Init | Any | Double | LongLong | String_.

Definition all_kinds : list kind :=
  [Clear; Add; Deinit; Init; Any; Double; LongLong; String_].

Definition decl (k : kind) : fnptr_typedef :=
  match k with
  | Clear => Udf_func_clear
  | Add => Udf_func_add
  | Deinit => Udf_func_deinit
  | Init => Udf_func_init
  | Any => Udf_func_any
  | Double => Udf_func_double
  | LongLong => Udf_func_longlong
  | String_ => Udf_func_string
  end.

Definition ret (k : kind) : ctype := td_ret (decl k).
Definition params (k : kind) : list ctype := td_params (decl k).

Lemma all_kinds_complete (k : kind) : In k all_kinds.
Proof. destruct k; simpl; tauto. Qed.

Lemma decl_enumerates_tmp_c : map decl all_kinds = tmp_c.
Proof. reflexivity. Qed.

(** ** Parameter categories of the §2 table

    The spec's §2 table gives each kind a shape in terms of parameter
    categories.  [spec_shape] writes that table down as the spec states
    it; [fits] and [ret_fits] say which C types of [tmp.c] a category can
    stand for, so that [matches_table] compares a declaration of the
    source with its row of the table. *)

Inductive category : Type :=
| Context | Args | ResultBuffer | NullFlag | LengthOut | ErrorBuffer.

Inductive ret_category : Type := RVoid | RBool | RValue.

(** Modelled from the spec: the §2 table, row by row (the
    [double / longlong / string] row with and without its optional
    [length-out]). *)
Definition spec_shape (k : kind) : list category * ret_category :=
  match k with
  | Clear => ([Context; ResultBuffer; NullFlag], RVoid)
  | Add => ([Context; Args; ResultBuffer; NullFlag], RVoid)
  | Deinit => ([Context], RVoid)
  | Init => ([Context; Args; ErrorBuffer], RBool)
  | Any => ([], RVoid)
  | Double | LongLong => ([Context; Args; ResultBuffer; NullFlag], RValue)
  | String_ => ([Context; Args; LengthOut; ResultBuffer; NullFlag], RValue)
  end.

(** A result buffer is a byte or character buffer; the null flag is an
    [unsigned char *]; the error-message buffer is a [char *]. *)
Definition fits (c : category) (t : ctype) : bool :=
  match c with
  | Context => ctype_eqb t (TPtr UDF_INIT)
  | Args => ctype_eqb t (TPtr UDF_ARGS)
  | ResultBuffer => ctype_eqb t (TPtr TUChar) || ctype_eqb t (TPtr TChar)
  | NullFlag => ctype_eqb t (TPtr TUChar)
  | LengthOut => ctype_eqb t (TPtr TULong)
  | ErrorBuffer => ctype_eqb t (TPtr TChar)
  end.

Definition ret_fits (r : ret_category) (t : ctype) : bool :=
  match r with
  | RVoid => ctype_eqb t TVoid
  | RBool => ctype_eqb t TBool
  | RValue => negb (ctype_eqb t TVoid) && negb (ctype_eqb t TBool)
  end.

Fixpoint fits_all (cs : list category) (ts : list ctype) : bool :=
  match cs, ts with
  | [], [] => true
  | c :: cs', t :: ts' => fits c t && fits_all cs' ts'
  | _, _ => false
  end.

Definition matches_table (k : kind) : bool :=
  let '(cs, r) := spec_shape k in
  fits_all cs (params k) && ret_fits r (ret k).

Lemma fits_all_length (cs : list category) (ts : list ctype) :
  fits_all cs ts = true -> length cs = length ts.
Proof.
  revert ts; induction cs as [|c cs IH]; intros [|t ts]; simpl;
    try discriminate; auto.
  intro H; apply andb_true_iff in H as [_ H]; f_equal; auto.
Qed.

(** Whether a parameter list contains a given C type. *)
Definition has_param (t : ctype) (k : kind) : bool :=
  existsb (ctype_eqb t) (params k).

Lemma has_param_In (t : ctype) (k : kind) :
  has_param t k = true <-> In t (params k).
Proof.
  unfold has_param; rewrite existsb_exists; split.
  - intros [x [Hx He]]; apply ctype_eqb_spec in He; subst; exact Hx.
  - intro H; exists t; split; [exact H | apply ctype_eqb_spec; reflexivity].
Qed.

Example matches_table_add : matches_table Add = true.
Proof. reflexivity. Qed.

Example matches_table_string : matches_table String_ = false.
Proof. reflexivity. Qed.

(** * Claims *)

(** C1 (counterexample).  The claim that every alias matches the §2 table,
    and that the string callback has exactly the five parameters context,
    args, length-out, result-buffer, null-flag, fails: [Udf_func_string]
    declares six parameters and so does not match its row. *)
Lemma C1_string_counterexample :
  length (params String_) = 6 /\ length (params String_) <> 5 /\
  matches_table String_ = false /\
  ~ (forall k, matches_table k = true).
Proof.
  repeat split; try discriminate.
  intro H; specialize (H String_); discriminate H.
Qed.

(** C1 (amended).  Every alias except the string one matches its row of
    the §2 table in count, order and category of parameters and in its
    return; the string alias has six parameters: context, args, a [char *]
    result buffer, the [unsigned long *] length-out and two
    [unsigned char *] flags, and returns [char *]. *)
Theorem C1_shapes_match_table_except_string :
  (forall k, k <> String_ -> matches_table k = true) /\
  params String_ =
    [TPtr UDF_INIT; TPtr UDF_ARGS; TPtr TChar;
     TPtr TULong; TPtr TUChar; TPtr TUChar] /\
  ret String_ = TPtr TChar.
Proof.
  split; [|split; reflexivity].
  intros [] Hk; try reflexivity; congruence.
Qed.

(** C2 (counterexample).  Not every alias takes the invocation context
    first: [Udf_func_any] is declared [(void)] and has no parameter at all. *)
Lemma C2_any_has_no_context :
  params Any = [] /\ ~ (forall k, hd_error (params k) = Some (TPtr UDF_INIT)).
Proof.
  split; [reflexivity|].
  intro H; specialize (H Any); discriminate H.
Qed.

(** C2 (amended).  Every alias other than [Udf_func_any] declares
    [UDF_INIT *] as its first parameter; [Udf_func_any] has none. *)
Theorem C2_context_first_except_any :
  (forall k, k <> Any -> hd_error (params k) = Some (TPtr UDF_INIT)) /\
  params Any = [].
Proof.
  split; [|reflexivity].
  intros [] Hk; try reflexivity; congruence.
Qed.

(** C3.  [Udf_func_init] is the only alias returning [bool]; clear, add
    and deinit return [void]; the only [char *] parameter outside init is
    the result buffer of the string alias, whose [char *] is also its
    return type, so init's [char *] is the only error-message buffer. *)
Theorem C3_init_only_error_channel :
  (forall k, ret k = TBool <-> k = Init) /\
  ret Clear = TVoid /\ ret Add = TVoid /\ ret Deinit = TVoid /\
  (forall k, In (TPtr TChar) (params k) ->
             k = Init \/ (k = String_ /\ ret k = TPtr TChar)) /\
  last (params Init) TVoid = TPtr TChar.
Proof.
  split; [|split; [reflexivity|split; [reflexivity|split; [reflexivity|split]]]].
  - intro k; unfold ret; destruct k; simpl; split; congruence.
  - intros k H; apply has_param_In in H; revert H.
    unfold ret; destruct k; simpl; try discriminate; auto.
  - reflexivity.
Qed.

(** C4.  [Udf_func_string] is the only alias with an [unsigned long *]
    (length-out) parameter. *)
Theorem C4_length_out_only_in_string :
  forall k, In (TPtr TULong) (params k) <-> k = String_.
Proof.
  intro k; rewrite <- has_param_In.
  destruct k; vm_compute; split; congruence.
Qed.

(** C5.  [Udf_func_any] has no parameter and returns [void], and no other
    alias has both properties. *)
Theorem C5_any_distinct :
  params Any = [] /\ ret Any = TVoid /\
  (forall k, params k = [] /\ ret k = TVoid -> k = Any).
Proof.
  repeat split; try reflexivity.
  intros [] [Hp Hr]; try reflexivity; discriminate.
Qed.

(** C6.  [Udf_func_add] takes [UDF_INIT *], [UDF_ARGS *] and two
    [unsigned char *] (result buffer, null flag), returns [void], and
    matches the add row of the table. *)
Theorem C6_add_shape :
  params Add = [TPtr UDF_INIT; TPtr UDF_ARGS; TPtr TUChar; TPtr TUChar] /\
  ret Add = TVoid /\ matches_table Add = true.
Proof. repeat split. Qed.

(** C7.  [Udf_func_clear] takes [UDF_INIT *] and two [unsigned char *]
    (result buffer, null flag), returns [void], and matches the clear row
    of the table. *)
Theorem C7_clear_shape :
  params Clear = [TPtr UDF_INIT; TPtr TUChar; TPtr TUChar] /\
  ret Clear = TVoid /\ matches_table Clear = true.
Proof. repeat split. Qed.

(** C8.  [Udf_func_deinit] takes exactly the context [UDF_INIT *] and
    returns [void]. *)
Theorem C8_deinit_shape :
  params Deinit = [TPtr UDF_INIT] /\ ret Deinit = TVoid /\
  matches_table Deinit = true.
Proof. repeat split. Qed.

(** C9.  [Udf_func_string] declares six parameters, the last two both of
    type [unsigned char *], and returns the pointer type [char *]. *)
Theorem C9_string_six_params_two_flags :
  length (params String_) = 6 /\
  skipn 4 (params String_) = [TPtr TUChar; TPtr TUChar] /\
  ret String_ = TPtr TChar.
Proof. repeat split. Qed.

(** C10.  Add, double and longlong have the same parameter list
    [(UDF_INIT *, UDF_ARGS *, unsigned char *, unsigned char * )]; double
    and longlong differ only in their return types [double] and
    [long long], and add returns [void]. *)
Theorem C10_add_double_longlong_same_params :
  params Add = [TPtr UDF_INIT; TPtr UDF_ARGS; TPtr TUChar; TPtr TUChar] /\
  params Double = params Add /\ params LongLong = params Add /\
  ret Double = TDouble /\ ret LongLong = TLongLong /\
  ret Double <> ret LongLong /\ ret Add = TVoid.
Proof. repeat split; discriminate. Qed.

(** ** Witnesses *)

Lemma C1_witness : Clear <> String_ /\ matches_table Clear = true.
Proof.
  split; [discriminate|].
  apply (proj1 C1_shapes_match_table_except_string Clear); discriminate.
Defined.

Lemma C2_witness :
  Deinit <> Any /\ hd_error (params Deinit) = Some (TPtr UDF_INIT).
Proof.
  split; [discriminate|].
  apply (proj1 C2_context_first_except_any Deinit); discriminate.
Defined.

Lemma C3_witness :
  In (TPtr TChar) (params String_) /\
  (String_ = Init \/ (String_ = String_ /\ ret String_ = TPtr TChar)).
Proof.
  split; [simpl; tauto|].
  apply (proj1 (proj2 (proj2 (proj2 (proj2 C3_init_only_error_channel)))) String_).
  simpl; tauto.
Defined.

Lemma C4_witness : In (TPtr TULong) (params String_).
Proof. apply (proj2 (C4_length_out_only_in_string String_)); reflexivity. Defined.

Lemma C5_witness : params Any = [] /\ ret Any = TVoid /\ Any = Any.
Proof.
  split; [reflexivity|split; [reflexivity|]].
  apply (proj2 (proj2 C5_any_distinct) Any); split; reflexivity.
Defined.

(** * Further properties of the declarations *)

Definition is_ptr (t : ctype) : bool :=
  match t with TPtr _ => true | _ => false end.

(** Every parameter of every callback typedef is a pointer: all data is
    passed by reference. *)
Theorem all_params_are_pointers :
  forall k t, In t (params k) -> exists u, t = TPtr u.
Proof.
  intros k t H.
  assert (Hall : forallb is_ptr (params k) = true) by (destruct k; reflexivity).
  rewrite forallb_forall in Hall; specialize (Hall t H).
  destruct t; try discriminate; eauto.
Qed.

Lemma all_params_are_pointers_witness :
  In (TPtr TULong) (params String_) /\ exists u, TPtr TULong = TPtr u.
Proof.
  split; [simpl; tauto|].
  apply (all_params_are_pointers String_); simpl; tauto.
Defined.

Definition udf_prefix : string := "Udf_func_".

(** The typedef names of [tmp.c] are pairwise distinct and all start with
    [Udf_func_]. *)
Theorem typedef_names_distinct_prefixed :
  NoDup (map td_name tmp_c) /\
  forall d, In d tmp_c -> prefix udf_prefix (td_name d) = true.
Proof.
  split.
  - repeat constructor; simpl; intuition discriminate.
  - intros d Hd; simpl in Hd;
      repeat (destruct Hd as [<- | Hd]; [reflexivity|]); contradiction.
Qed.

Lemma typedef_names_distinct_prefixed_witness :
  In Udf_func_init tmp_c /\ prefix udf_prefix (td_name Udf_func_init) = true.
Proof.
  split; [simpl; tauto|].
  apply (proj2 typedef_names_distinct_prefixed); simpl; tauto.
Defined.

(** Clear's parameter list is add's with the [UDF_ARGS *] removed. *)
Theorem clear_is_add_without_args :
  params Clear = remove ctype_eq_dec (TPtr UDF_ARGS) (params Add) /\
  In (TPtr UDF_ARGS) (params Add) /\ ~ In (TPtr UDF_ARGS) (params Clear).
Proof.
  split; [reflexivity|split; [simpl; tauto|]].
  simpl; intuition discriminate.
Qed.

(** Init's parameter list is add's first two parameters (context, args)
    followed by a [char *]; string's is double's with [char *] and
    [unsigned long *] inserted after those two. *)
Theorem init_string_extend_add_prefix :
  params Init = (firstn 2 (params Add) ++ [TPtr TChar])%list /\
  params String_ =
    (firstn 2 (params Double) ++ [TPtr TChar; TPtr TULong] ++
     skipn 2 (params Double))%list.
Proof. split; reflexivity. Qed.

(** The two [unsigned char *] flags: a typedef has an [unsigned char *]
    parameter exactly when its last two parameters are both
    [unsigned char *], and that holds for clear, add, double, longlong and
    string, never for deinit, init or any. *)
Theorem flag_pair_trailing :
  forall k,
    (In (TPtr TUChar) (params k) <->
     skipn (length (params k) - 2) (params k) = [TPtr TUChar; TPtr TUChar]) /\
    (In (TPtr TUChar) (params k) <->
     In k [Clear; Add; Double; LongLong; String_]).
Proof.
  intro k; rewrite <- !has_param_In.
  destruct k; vm_compute; intuition congruence.
Qed.

(** [UDF_ARGS *] occurs in a typedef exactly when the typedef starts with
    [(UDF_INIT *, UDF_ARGS * ...)]; clear, deinit and any are the ones
    without it. *)
Theorem args_second_when_present :
  forall k,
    (In (TPtr UDF_ARGS) (params k) <->
     firstn 2 (params k) = [TPtr UDF_INIT; TPtr UDF_ARGS]) /\
    (~ In (TPtr UDF_ARGS) (params k) <-> In k [Clear; Deinit; Any]).
Proof.
  intro k; rewrite <- !has_param_In.
  destruct k; vm_compute; intuition congruence.
Qed.


Lemma flag_pair_trailing_witness :
  In (TPtr TUChar) (params Clear) /\
  skipn (length (params Clear) - 2) (params Clear) = [TPtr TUChar; TPtr TUChar].
Proof.
  split; [simpl; tauto|].
  apply (proj1 (proj1 (flag_pair_trailing Clear))); simpl; tauto.
Defined.

Lemma args_second_when_present_witness :
  In (TPtr UDF_ARGS) (params Init) /\
  firstn 2 (params Init) = [TPtr UDF_INIT; TPtr UDF_ARGS].
Proof.
  split; [simpl; tauto|].
  apply (proj1 (proj1 (args_second_when_present Init))); simpl; tauto.
Defined.

